(** * render_octahedra: the scene that [render] hands to the path tracer

    A shallow embedding of [render_octahedra.py].  The script is one function,
    [render], that checks the version of the rendering library, assembles a
    scene from a particle snapshot and asks a path tracer for an image.

    Python values are modelled as the script has them: binary64 floats are
    Rocq's primitive floats, integer literals stay integers, exceptions are an
    explicit result type, [warnings.warn] appends to a log carried by the
    process state, and the objects the script mutates after handing them to
    the scene are reached through the scene's geometry list.  The two
    libraries the script calls ([packaging.version] and [fresnel]) are
    interfaces: a type class each, so every theorem holds for every
    implementation of them. *)

From Stdlib Require Import Floats ZArith Bool Ascii Lia.
From stdpp Require Import base list strings.

(* A decimal literal denotes the nearest binary64 value, as it does in Python. *)
Set Warnings "-inexact-float".

(** ** Python values *)

(** Numbers as the script writes them: [0] is an int, [0.5] is a float. *)
Inductive pynum : Type :=
| PyInt (z : Z)
| PyFloat (f : float).

Definition pytuple3 : Type := pynum * pynum * pynum.

Definition ints (a b c : Z) : pytuple3 := (PyInt a, PyInt b, PyInt c).
Definition floats (a b c : float) : pytuple3 := (PyFloat a, PyFloat b, PyFloat c).

(** [math.pi] *)
Definition math_pi : float := 0x1.921fb54442d18p+1%float.

(** The binary32 value nearest to a binary64 value (ties to even), as a
    binary64 value: what a cast to [numpy.float32] keeps of a Python float. *)
Definition to_float32 (x : float) : float :=
  match Prim2SF x with
  | S754_finite s m e => SF2Prim (binary_round 24 128 s m e)
  | _ => x
  end.

(** Exceptions that can leave [render]. *)
Inductive exn : Type :=
| AttributeError (attr : string)
| InvalidVersion (s : string)
| IndexError
| ValueError
| BackendError (msg : string).

Inductive result (A : Type) : Type :=
| Ok (a : A)
| Raise (e : exn).
Arguments Ok {A} a.
Arguments Raise {A} e.

Definition is_ok {A} (r : result A) : bool :=
  match r with Ok _ => true | Raise _ => false end.

(** ** The snapshot *)

Definition vec3 : Type := float * float * float.
Definition quat : Type := float * float * float * float.

(** [snapshot.particles] *)
Record Particles : Type := {
  p_N : nat;
  p_position : list vec3;
  p_orientation : list quat
}.

(** [snapshot.configuration]; [box] is the tuple (Lx, Ly, Lz, xy, xz, yz). *)
Record Configuration : Type := {
  c_box : list float
}.

Record Snapshot : Type := {
  configuration : Configuration;
  particles : Particles
}.

(** ** packaging.version *)

Class Packaging : Type := {
  Version : Type;
  (** [packaging.version.parse]; raises [InvalidVersion] on a malformed string *)
  parse : string -> result Version;
  (** [Version.__lt__] and [Version.__ge__] *)
  version_lt : Version -> Version -> bool;
  version_ge : Version -> Version -> bool
}.

(** ** fresnel: the values the script builds *)

(** [fresnel.Device()], and a device made with arguments of its own,
    [fresnel.Device(mode, n)]; the script makes the first kind only. *)
Inductive Device : Type :=
| DefaultDevice
| ConfiguredDevice (mode : string) (n : nat).

(** [fresnel.tracer.Path(device, w, h)] *)
Record Tracer : Type := Path {
  tracer_device : Device;
  tracer_w : Z;
  tracer_h : Z
}.

(** [fresnel.light.Light(direction, color, theta)] *)
Record Light : Type := {
  direction : pytuple3;
  light_color : pytuple3;
  theta : float
}.

(** [fresnel.camera.Orthographic(position, look_at, up, height)] *)
Record Camera : Type := Orthographic {
  cam_position : pytuple3;
  look_at : pytuple3;
  up : pytuple3;
  height : pynum
}.

(** The part of [fresnel] that computes: what [dir(fresnel)] shows of the
    version, the convex hull helper and the colour conversion. *)
Class Fresnel : Type := {
  (** [Some s] when [fresnel.version.version] is [s]; [None] when the module
      has no [version] attribute *)
  fresnel_version : option string;
  PolyInfo : Type;
  (** [fresnel.util.convex_polyhedron_from_vertices] *)
  convex_polyhedron_from_vertices : list pytuple3 -> result PolyInfo;
  LinearColor : Type;
  (** [fresnel.color.linear] *)
  color_linear : list float -> LinearColor;
  (** What a coordinate becomes when it is written into one of the
      library's per-instance arrays, which have a precision of their own *)
  buffer_float : float -> float
}.

Section Scene.
Context {F : Fresnel}.

(** [fresnel.material.Material(color, roughness)] *)
Record Material : Type := {
  color : LinearColor;
  roughness : float
}.

(** [fresnel.geometry.ConvexPolyhedron]: [None] in [material] and
    [outline_width] is the library's default, which the script overwrites. *)
Record ConvexPolyhedron : Type := {
  poly_info : PolyInfo;
  geo_N : nat;
  material : option Material;
  position : list vec3;
  orientation : list quat;
  outline_width : option float
}.

(** [fresnel.geometry.Box(scene, box, box_radius)] *)
Record Box : Type := {
  box : list float;
  box_radius : float
}.

Inductive Geometry : Type :=
| GConvexPolyhedron (g : ConvexPolyhedron)
| GBox (b : Box).

(** [fresnel.Scene]: a geometry registers itself in [geometry] when it is
    constructed, so later writes to the geometry object are writes to this
    list.  [None] in the last three fields is the library's default. *)
Record Scene : Type := {
  scene_device : Device;
  geometry : list Geometry;
  lights : option (list Light);
  camera : option Camera;
  background_color : option pytuple3
}.
End Scene.

(** The part of [fresnel] that renders. [World] is whatever the device and the
    tracer keep between calls (sample buffers, random seeds). *)
Class FresnelTracer {F : Fresnel} : Type := {
  World : Type;
  Pixels : Type;
  (** [tracer.sample(scene, samples)] *)
  sample : Tracer -> Scene -> Z -> World -> result Pixels * World;
  (** [pixels._repr_png_()] *)
  repr_png : Pixels -> list Byte.byte
}.

(** [IPython.display.Image(data)] *)
Record Image : Type := {
  image_data : list Byte.byte
}.

(** ** Scene operations *)

Section SceneOps.
Context {F : Fresnel}.

Definition set_geometry (gs : list Geometry) (sc : Scene) : Scene :=
  {| scene_device := scene_device sc; geometry := gs; lights := lights sc;
     camera := camera sc; background_color := background_color sc |}.

(** [scene.lights = ls] *)
Definition set_lights (ls : list Light) (sc : Scene) : Scene :=
  {| scene_device := scene_device sc; geometry := geometry sc; lights := Some ls;
     camera := camera sc; background_color := background_color sc |}.

(** [scene.camera = c] *)
Definition set_camera (c : Camera) (sc : Scene) : Scene :=
  {| scene_device := scene_device sc; geometry := geometry sc; lights := lights sc;
     camera := Some c; background_color := background_color sc |}.

(** [scene.background_color = c] *)
Definition set_background_color (c : pytuple3) (sc : Scene) : Scene :=
  {| scene_device := scene_device sc; geometry := geometry sc; lights := lights sc;
     camera := camera sc; background_color := Some c |}.

(** [fresnel.Scene(device)] *)
Definition Scene_new (d : Device) : Scene :=
  {| scene_device := d; geometry := []; lights := None; camera := None;
     background_color := None |}.

(** [fresnel.geometry.ConvexPolyhedron(scene, poly_info, N=n)]: the new
    geometry has [n] instances and is appended to the scene; the result is
    the reference to it (its index in the scene) and the scene.  The
    initial per-instance values are placeholders the script overwrites. *)
Definition ConvexPolyhedron_new (sc : Scene) (pi : PolyInfo) (n : nat) : nat * Scene :=
  (length (geometry sc),
   set_geometry
     (geometry sc ++
        [GConvexPolyhedron
           {| poly_info := pi; geo_N := n; material := None;
              position := replicate n (0, 0, 0)%float;
              orientation := replicate n (1, 0, 0, 0)%float;
              outline_width := None |}])
     sc).

(** [fresnel.geometry.Box(scene, box, box_radius=r)] *)
Definition Box_new (sc : Scene) (b : list float) (r : float) : nat * Scene :=
  (length (geometry sc),
   set_geometry (geometry sc ++ [GBox {| box := b; box_radius := r |}]) sc).

(** [geometry.material = m] *)
Definition set_material (m : Material) (g : ConvexPolyhedron) : result ConvexPolyhedron :=
  Ok {| poly_info := poly_info g; geo_N := geo_N g; material := Some m;
        position := position g; orientation := orientation g;
        outline_width := outline_width g |}.

(** A row as the library's arrays hold it. *)
Definition buffer_vec3 (r : vec3) : vec3 :=
  let '(x, y, z) := r in (buffer_float x, buffer_float y, buffer_float z).

Definition buffer_quat (q : quat) : quat :=
  let '(a, b, c, d) := q in
  (buffer_float a, buffer_float b, buffer_float c, buffer_float d).

(** [array[:] = src] on an array of [n] rows, which is an assignment of
    numpy: a source of [n] rows is written row by row, a source of one row is
    written to every row, any other source is refused; [conv] is the
    conversion of a row to the array's precision. *)
Definition assign_rows {A} (conv : A -> A) (n : nat) (src : list A) : result (list A) :=
  if (length src =? n)%nat then Ok (map conv src)
  else
    match src with
    | [row] => Ok (replicate n (conv row))
    | _ => Raise ValueError
    end.

(** The rows an assignment that went through has left. *)
Definition rows_after {A} (conv : A -> A) (n : nat) (src : list A) : list A :=
  match assign_rows conv n src with
  | Ok rows => rows
  | Raise _ => []
  end.

(** [geometry.position[:] = src] *)
Definition set_position (src : list vec3) (g : ConvexPolyhedron) : result ConvexPolyhedron :=
  match assign_rows buffer_vec3 (geo_N g) src with
  | Ok rows =>
      Ok {| poly_info := poly_info g; geo_N := geo_N g; material := material g;
            position := rows; orientation := orientation g;
            outline_width := outline_width g |}
  | Raise e => Raise e
  end.

(** [geometry.orientation[:] = src] *)
Definition set_orientation (src : list quat) (g : ConvexPolyhedron) : result ConvexPolyhedron :=
  match assign_rows buffer_quat (geo_N g) src with
  | Ok rows =>
      Ok {| poly_info := poly_info g; geo_N := geo_N g; material := material g;
            position := position g; orientation := rows;
            outline_width := outline_width g |}
  | Raise e => Raise e
  end.

(** [geometry.outline_width = w] *)
Definition set_outline_width (w : float) (g : ConvexPolyhedron) : result ConvexPolyhedron :=
  Ok {| poly_info := poly_info g; geo_N := geo_N g; material := material g;
        position := position g; orientation := orientation g;
        outline_width := Some w |}.

(** A write through the variable [geometry]: the object lives in the scene,
    so the write is an update of the scene's geometry list at [ref]. *)
Definition update_polyhedron (ref : nat)
    (f : ConvexPolyhedron -> result ConvexPolyhedron) (sc : Scene) : result Scene :=
  match geometry sc !! ref with
  | Some (GConvexPolyhedron g) =>
      match f g with
      | Ok g' => Ok (set_geometry (<[ref := GConvexPolyhedron g']> (geometry sc)) sc)
      | Raise e => Raise e
      end
  | _ => Raise (AttributeError "geometry")
  end.

(** [l[i]] on a tuple or list *)
Definition getitem {A} (l : list A) (i : nat) : result A :=
  match l !! i with
  | Some x => Ok x
  | None => Raise IndexError
  end.

(** [x[:]]: a copy with the same elements *)
Definition slice_all {A} (l : list A) : list A := l.
End SceneOps.

(** ** The module and [render] *)

(** The module-level names. *)
Record Globals {P : Packaging} : Type := {
  device : Device;
  tracer : Tracer;
  FRESNEL_MIN_VERSION : Version;
  FRESNEL_MAX_VERSION : Version
}.

(** Lines 8 to 12, run once when the module is imported. *)
Definition import_module {P : Packaging} : result Globals :=
  let device := DefaultDevice in
  let tracer := Path device 300 300 in
  match parse "0.13.0" with
  | Raise e => Raise e
  | Ok vmin =>
      match parse "0.14.0" with
      | Raise e => Raise e
      | Ok vmax =>
          Ok {| device := device; tracer := tracer;
                FRESNEL_MIN_VERSION := vmin; FRESNEL_MAX_VERSION := vmax |}
      end
  end.

(** The vertex list of [render], lines 23 to 30. *)
Definition vertices : list pytuple3 :=
  [ (PyFloat (-0.5), PyInt 0, PyInt 0);
    (PyFloat 0.5, PyInt 0, PyInt 0);
    (PyInt 0, PyFloat (-0.5), PyInt 0);
    (PyInt 0, PyFloat 0.5, PyInt 0);
    (PyInt 0, PyInt 0, PyFloat (-0.5));
    (PyInt 0, PyInt 0, PyFloat 0.5) ].

Section Render.
Context {P : Packaging} {F : Fresnel} {T : FresnelTracer}.

(** What a call can change outside itself: the warnings issued so far and
    the state of the device and tracer. *)
Record Process : Type := {
  warnings : list string;
  world : World
}.

(** A computation either returns or raises, and may change the process. *)
Definition M (A : Type) : Type := Process -> result A * Process.

Definition ret {A} (a : A) : M A := fun p => (Ok a, p).

Definition bind {A B} (m : M A) (k : A -> M B) : M B :=
  fun p =>
    match m p with
    | (Ok a, p') => k a p'
    | (Raise e, p') => (Raise e, p')
    end.

Definition raise {A} (e : exn) : M A := fun p => (Raise e, p).

Definition lift {A} (r : result A) : M A := fun p => (r, p).

(** [warnings.warn(msg)] *)
Definition warn (msg : string) : M unit :=
  fun p => (Ok tt, {| warnings := warnings p ++ [msg]; world := world p |}).

(** [tracer.sample(scene, samples=n)] *)
Definition tracer_sample (t : Tracer) (sc : Scene) (n : Z) : M Pixels :=
  fun p =>
    let '(r, w) := sample t sc n (world p) in
    (r, {| warnings := warnings p; world := w |}).
End Render.

Declare Scope py_scope.
Delimit Scope py_scope with py.
Notation "'let*' x ':=' m 'in' k" := (bind m (fun x => k))
  (at level 10, x name, m at level 100, k at level 200,
   format "'[v' 'let*'  x  ':='  m  'in' '/' k ']'") : py_scope.
Notation "'run' m 'in' k" := (bind m (fun _ => k))
  (at level 10, m at level 100, k at level 200,
   format "'[v' 'run'  m  'in' '/' k ']'") : py_scope.

Section RenderBody.
Context {P : Packaging} {F : Fresnel} {T : FresnelTracer}.
Variable G : Globals.
Local Open Scope py_scope.

(** ['version' in dir(fresnel)] *)
Definition version_in_dir : bool :=
  match fresnel_version with Some _ => true | None => false end.

(** The expression [fresnel.version.version] *)
Definition fresnel_version_version : M string :=
  match fresnel_version with
  | Some s => ret s
  | None => raise (AttributeError "version")
  end.

(** [a or b]: [b] is evaluated only when [a] is false *)
Definition py_or (a b : M bool) : M bool :=
  let* x := a in
  if x then ret true else b.

(** The condition of the [if], lines 16 to 19. *)
Definition unsupported_version : M bool :=
  py_or (ret (negb version_in_dir))
    (py_or (let* s := fresnel_version_version in
            let* v := lift (parse s) in
            ret (version_lt v (FRESNEL_MIN_VERSION G)))
           (let* s := fresnel_version_version in
            let* v := lift (parse s) in
            ret (version_ge v (FRESNEL_MAX_VERSION G)))).

(** The version check, lines 16 to 21. *)
Definition check_version : M unit :=
  let* c := unsupported_version in
  if c then
    let* s := fresnel_version_version in
    warn ("Unsupported fresnel version " +:+ s +:+ " - expect errors.")
  else ret tt.

(** Lines 16 to 60: everything [render] does before it calls the tracer. *)
Definition render_scene (snapshot : Snapshot) : M Scene :=
  run check_version in
  let* L := lift (getitem (c_box (configuration snapshot)) 0) in
  let* poly_info := lift (convex_polyhedron_from_vertices vertices) in
  let scene := Scene_new (device G) in
  let '(geometry, scene) :=
    ConvexPolyhedron_new scene poly_info (p_N (particles snapshot)) in
  let* scene :=
    lift (update_polyhedron geometry
            (set_material {| color := color_linear [0.01; 0.74; 0.26]%float;
                             roughness := 0.5 |}) scene) in
  let* scene :=
    lift (update_polyhedron geometry
            (set_position (slice_all (p_position (particles snapshot)))) scene) in
  let* scene :=
    lift (update_polyhedron geometry
            (set_orientation (slice_all (p_orientation (particles snapshot)))) scene) in
  let* scene := lift (update_polyhedron geometry (set_outline_width 0.01) scene) in
  let '(_, scene) := Box_new scene (c_box (configuration snapshot)) 0.02 in
  let scene :=
    set_lights
      [ {| direction := ints 0 0 1;
           light_color := floats 0.5 0.5 0.5;
           theta := math_pi |};
        {| direction := ints 1 1 1;
           light_color := floats 1.1 1.1 1.1;
           theta := (math_pi / 3)%float |} ]
      scene in
  let scene :=
    set_camera
      (Orthographic (floats (L * 2) L (L * 2)) (ints 0 0 0) (ints 0 1 0)
                    (PyFloat (L * 1.4 + 1)))
      scene in
  let scene := set_background_color (ints 1 1 1) scene in
  ret scene.

(** [render], lines 15 to 61. *)
Definition render (snapshot : Snapshot) : M Image :=
  let* scene := render_scene snapshot in
  let* pixels := tracer_sample (tracer G) scene 500 in
  ret {| image_data := repr_png pixels |}.
End RenderBody.

(** ** The scene a successful call assembles *)

Section Assembled.
Context {P : Packaging} {F : Fresnel}.

(** The scene after line 60, for the first box component [L] and the
    descriptor [pi] the convex hull helper returned. *)
Definition assembled_scene (G : Globals) (snapshot : Snapshot) (L : float)
    (pi : PolyInfo) : Scene :=
  {| scene_device := device G;
     geometry :=
       [ GConvexPolyhedron
           {| poly_info := pi;
              geo_N := p_N (particles snapshot);
              material :=
                Some {| color := color_linear [0.01; 0.74; 0.26]%float;
                        roughness := 0.5 |};
              position :=
                rows_after buffer_vec3 (p_N (particles snapshot))
                  (p_position (particles snapshot));
              orientation :=
                rows_after buffer_quat (p_N (particles snapshot))
                  (p_orientation (particles snapshot));
              outline_width := Some 0.01%float |};
         GBox {| box := c_box (configuration snapshot); box_radius := 0.02 |} ];
     lights :=
       Some [ {| direction := ints 0 0 1; light_color := floats 0.5 0.5 0.5;
                 theta := math_pi |};
              {| direction := ints 1 1 1; light_color := floats 1.1 1.1 1.1;
                 theta := (math_pi / 3)%float |} ];
     camera :=
       Some (Orthographic (floats (L * 2) L (L * 2)) (ints 0 0 0) (ints 0 1 0)
                          (PyFloat (L * 1.4 + 1)));
     background_color := Some (ints 1 1 1) |}.

(** The text of the warning for a backend that reports version [s]. *)
Definition warning_text (s : string) : string :=
  "Unsupported fresnel version " +:+ s +:+ " - expect errors.".

(** A scene whose polyhedron geometries have no instance. *)
Definition empty_geometry_set (sc : Scene) : Prop :=
  forall g, GConvexPolyhedron g ∈ geometry sc -> geo_N g = 0%nat.

(** A snapshot whose arrays have the length its particle count announces. *)
Definition consistent (snapshot : Snapshot) : Prop :=
  length (p_position (particles snapshot)) = p_N (particles snapshot) /\
  length (p_orientation (particles snapshot)) = p_N (particles snapshot).

(** A snapshot whose arrays the two assignments accept. *)
Definition assignable (snapshot : Snapshot) : Prop :=
  is_ok (assign_rows buffer_vec3 (p_N (particles snapshot))
           (p_position (particles snapshot))) = true /\
  is_ok (assign_rows buffer_quat (p_N (particles snapshot))
           (p_orientation (particles snapshot))) = true.
End Assembled.

(** ** A concrete backend

    An implementation of the three interfaces on which [render] can be run:
    versions are dotted release numbers, the convex hull helper and the colour
    conversion keep their argument, the per-instance arrays are binary32, and
    the tracer reports the sizes it was asked for and counts the calls made
    to it. *)

Module Mock.

Definition digit (c : ascii) : option nat :=
  let n := nat_of_ascii c in
  if (48 <=? n)%nat && (n <=? 57)%nat then Some (n - 48)%nat else None.

(** Reads [N(.N)*]; [cur] is the number being read, [acc] the numbers read. *)
Fixpoint parse_release (s : string) (cur : option nat) (acc : list nat)
    : option (list nat) :=
  match s with
  | EmptyString =>
      match cur with
      | Some n => Some (rev (n :: acc))
      | None => None
      end
  | String c s' =>
      if Ascii.eqb c "."%char then
        match cur with
        | Some n => parse_release s' None (n :: acc)
        | None => None
        end
      else
        match digit c with
        | Some d => parse_release s' (Some (10 * default 0 cur + d))%nat acc
        | None => None
        end
  end.

(** Releases compare number by number, a missing number counting as 0. *)
Fixpoint release_lt (a b : list nat) : bool :=
  match a, b with
  | [], _ => negb (forallb (Nat.eqb 0) b)
  | _ :: _, [] => false
  | x :: a', y :: b' => (x <? y)%nat || ((x =? y)%nat && release_lt a' b')
  end.

#[export] Instance packaging : Packaging := {|
  Version := list nat;
  parse := fun s =>
    match parse_release s None [] with
    | Some v => Ok v
    | None => Raise (InvalidVersion s)
    end;
  version_lt := release_lt;
  version_ge := fun a b => negb (release_lt a b)
|}.

(** A [fresnel] that reports the version [v]. *)
Definition fresnel (v : option string) : Fresnel := {|
  fresnel_version := v;
  PolyInfo := list pytuple3;
  convex_polyhedron_from_vertices := fun vs => Ok vs;
  LinearColor := list float;
  color_linear := fun c => c;
  buffer_float := to_float32
|}.

Definition fresnel_tracer (v : option string) : @FresnelTracer (fresnel v) := {|
  World := nat;
  Pixels := Z * Z * Z;
  sample := fun t _ n calls => (Ok (tracer_w t, tracer_h t, n), S calls);
  repr_png := fun _ => []
|}.

Definition globals : Globals :=
  {| device := DefaultDevice; tracer := Path DefaultDevice 300 300;
     FRESNEL_MIN_VERSION := [0; 13; 0]%nat; FRESNEL_MAX_VERSION := [0; 14; 0]%nat |}.

(** A process with the warnings [ws] issued and [calls] calls of the tracer made. *)
Definition process (v : option string) (ws : list string) (calls : nat)
    : @Process (fresnel v) (fresnel_tracer v) :=
  @Build_Process (fresnel v) (fresnel_tracer v) ws calls.

Definition process0 (v : option string) : @Process (fresnel v) (fresnel_tracer v) :=
  process v [] 0.

(** Three particles in a box that is not cubic. *)
Definition snapshot3 : Snapshot :=
  {| configuration := {| c_box := [10; 12; 14; 0; 0; 0]%float |};
     particles :=
       {| p_N := 3;
          p_position := [(1, 2, 3); (-1, 0.5, 0); (0, 0, -4)]%float;
          p_orientation := [(1, 0, 0, 0); (0, 1, 0, 0); (0, 0, 0, 1)]%float |} |}.

(** The same first box component, other lengths in the other directions. *)
Definition snapshot3_flat : Snapshot :=
  {| configuration := {| c_box := [10; 3; 5; 0; 0; 0]%float |};
     particles := particles snapshot3 |}.

(** The data of [snapshot3], built a second time. *)
Definition snapshot3_again : Snapshot :=
  {| configuration := {| c_box := [10; 12; 14; 0; 0; 0]%float |};
     particles :=
       {| p_N := 3;
          p_position := [(1, 2, 3); (-1, 0.5, 0); (0, 0, -4)]%float;
          p_orientation := [(1, 0, 0, 0); (0, 1, 0, 0); (0, 0, 0, 1)]%float |} |}.

(** One particle, at a place binary32 cannot name. *)
Definition snapshot_tenth : Snapshot :=
  {| configuration := {| c_box := [10; 10; 10; 0; 0; 0]%float |};
     particles :=
       {| p_N := 1;
          p_position := [(0.1, 0, 0)%float];
          p_orientation := [(1, 0, 0, 0)%float] |} |}.

(** Three particles announced, one row given for each array. *)
Definition snapshot_one_row : Snapshot :=
  {| configuration := {| c_box := [10; 10; 10; 0; 0; 0]%float |};
     particles :=
       {| p_N := 3;
          p_position := [(1, 2, 3)%float];
          p_orientation := [(1, 0, 0, 0)%float] |} |}.

(** Globals whose tracer was made for another device than [device]. *)
Definition globals_two_devices : Globals :=
  {| device := DefaultDevice; tracer := Path (ConfiguredDevice "cpu" 1) 300 300;
     FRESNEL_MIN_VERSION := [0; 13; 0]%nat; FRESNEL_MAX_VERSION := [0; 14; 0]%nat |}.

(** No particles. *)
Definition snapshot0 : Snapshot :=
  {| configuration := {| c_box := [10; 10; 10; 0; 0; 0]%float |};
     particles := {| p_N := 0; p_position := []; p_orientation := [] |} |}.

(** Runs [render_scene] and [render] against a backend of version [v]. *)
Definition run_scene (v : option string) (s : Snapshot) :=
  @render_scene packaging (fresnel v) (fresnel_tracer v) globals s (process0 v).

Definition run_render (v : option string) (s : Snapshot) :=
  @render packaging (fresnel v) (fresnel_tracer v) globals s (process0 v).

(** A backend in the supported range. *)
#[export] Instance fresnel_0_13 : Fresnel := fresnel (Some "0.13.2").
#[export] Instance tracer_0_13 : FresnelTracer := fresnel_tracer (Some "0.13.2").

(** The scene [render_scene] returns for [s] when it returns. *)
Definition scene (v : option string) (s : Snapshot) : @Scene (fresnel v) :=
  @assembled_scene packaging (fresnel v) globals s 10 vertices.

(** The process after one call of [render]. *)
Definition process1 (v : option string) : @Process (fresnel v) (fresnel_tracer v) :=
  snd (run_render v snapshot3).

(** A [fresnel] of version [v] whose convex hull helper fails. *)
Definition fresnel_no_hull (v : option string) : Fresnel := {|
  fresnel_version := v;
  PolyInfo := list pytuple3;
  convex_polyhedron_from_vertices := fun _ => Raise (BackendError "degenerate hull");
  LinearColor := list float;
  color_linear := fun c => c;
  buffer_float := to_float32
|}.

Definition tracer_no_hull (v : option string) : @FresnelTracer (fresnel_no_hull v) := {|
  World := nat;
  Pixels := Z * Z * Z;
  sample := fun t _ n calls => (Ok (tracer_w t, tracer_h t, n), S calls);
  repr_png := fun _ => []
|}.

(** A tracer whose device fails while it samples; the call is still counted. *)
Definition failing_tracer (v : option string) : @FresnelTracer (fresnel v) := {|
  World := nat;
  Pixels := Z * Z * Z;
  sample := fun _ _ _ calls => (Raise (BackendError "device lost"), S calls);
  repr_png := fun _ => []
|}.

(** Three particles and a box tuple without entries. *)
Definition snapshot_no_box : Snapshot :=
  {| configuration := {| c_box := [] |}; particles := particles snapshot3 |}.

End Mock.

(** ** Floating point *)

Lemma SFmul_comm prec emax (x y : spec_float) :
  SFmul prec emax x y = SFmul prec emax y x.
Proof.
  destruct x as [sx|sx| |sx mx ex], y as [sy|sy| |sy my ey]; simpl;
    try reflexivity; try (now rewrite xorb_comm).
  now rewrite xorb_comm, Pos.mul_comm, Z.add_comm.
Qed.

(** Binary64 multiplication commutes, so [L * 2] is [2 * L]. *)
Lemma float_mul_comm (x y : float) : (x * y = y * x)%float.
Proof.
  apply Prim2SF_inj. rewrite !mul_spec. apply SFmul_comm.
Qed.

(** ** The monad *)

Section MonadFacts.
Context {P : Packaging} {F : Fresnel} {T : FresnelTracer}.

Lemma bind_Ok_inv {A B} (m : M A) (k : A -> M B) p b p' :
  bind m k p = (Ok b, p') ->
  exists a p1, m p = (Ok a, p1) /\ k a p1 = (Ok b, p').
Proof.
  unfold bind. destruct (m p) as [[a|e] p1]; intros H.
  - exists a, p1. split; [reflexivity | exact H].
  - discriminate H.
Qed.

Lemma bind_Ok {A B} (m : M A) (k : A -> M B) p a p1 :
  m p = (Ok a, p1) -> bind m k p = k a p1.
Proof. unfold bind. now intros ->. Qed.

Lemma bind_Raise {A B} (m : M A) (k : A -> M B) p e p1 :
  m p = (Raise e, p1) -> bind m k p = (Raise e, p1).
Proof. unfold bind. now intros ->. Qed.

Lemma lift_Ok_inv {A} (r : result A) p a p' :
  lift r p = (Ok a, p') -> r = Ok a /\ p' = p.
Proof. unfold lift. intros H. injection H as -> ->. split; reflexivity. Qed.
End MonadFacts.

(** ** The version check, case by case *)

Section VersionCheck.
Context {P : Packaging} {F : Fresnel} {T : FresnelTracer}.
Variable G : Globals.

(** No [version] attribute: the condition is true without looking further,
    and building the message reads the attribute that is not there. *)
Lemma check_version_absent p :
  fresnel_version = None ->
  check_version G p = (Raise (AttributeError "version"), p).
Proof.
  intros Hv.
  unfold check_version, unsupported_version, py_or, version_in_dir,
    fresnel_version_version, bind, ret, raise.
  rewrite Hv. reflexivity.
Qed.

(** A version string that [parse] refuses. *)
Lemma check_version_invalid p s e :
  fresnel_version = Some s -> parse s = Raise e ->
  check_version G p = (Raise e, p).
Proof.
  intros Hv Hp.
  unfold check_version, unsupported_version, py_or, version_in_dir,
    fresnel_version_version, bind, ret, lift.
  rewrite Hv. simpl. rewrite Hp. reflexivity.
Qed.

(** A version that parses: one warning outside the range, none inside. *)
Lemma check_version_present p s v :
  fresnel_version = Some s -> parse s = Ok v ->
  check_version G p =
    (Ok tt,
     if version_lt v (FRESNEL_MIN_VERSION G) || version_ge v (FRESNEL_MAX_VERSION G)
     then {| warnings := warnings p ++ [warning_text s]; world := world p |}
     else p).
Proof.
  intros Hv Hp.
  unfold check_version, unsupported_version, py_or, version_in_dir,
    fresnel_version_version, bind, ret, lift, warn, warning_text.
  rewrite Hv. simpl. rewrite Hp.
  destruct (version_lt v (FRESNEL_MIN_VERSION G)); simpl.
  - reflexivity.
  - destruct (version_ge v (FRESNEL_MAX_VERSION G)); reflexivity.
Qed.

Lemma check_version_warns_below p s v :
  fresnel_version = Some s -> parse s = Ok v ->
  version_lt v (FRESNEL_MIN_VERSION G) = true ->
  check_version G p =
    (Ok tt, {| warnings := warnings p ++ [warning_text s]; world := world p |}).
Proof.
  intros Hv Hp Hlt. rewrite (check_version_present p s v Hv Hp), Hlt. reflexivity.
Qed.

Lemma check_version_warns_at_or_above p s v :
  fresnel_version = Some s -> parse s = Ok v ->
  version_ge v (FRESNEL_MAX_VERSION G) = true ->
  check_version G p =
    (Ok tt, {| warnings := warnings p ++ [warning_text s]; world := world p |}).
Proof.
  intros Hv Hp Hge. rewrite (check_version_present p s v Hv Hp), Hge.
  rewrite orb_true_r. reflexivity.
Qed.

Lemma check_version_silent_in_range p s v :
  fresnel_version = Some s -> parse s = Ok v ->
  version_lt v (FRESNEL_MIN_VERSION G) = false ->
  version_ge v (FRESNEL_MAX_VERSION G) = false ->
  check_version G p = (Ok tt, p).
Proof.
  intros Hv Hp Hlt Hge. rewrite (check_version_present p s v Hv Hp), Hlt, Hge.
  reflexivity.
Qed.

(** Whether the check returns or raises does not depend on the process. *)
Lemma check_version_result p1 p2 :
  fst (check_version G p1) = fst (check_version G p2).
Proof.
  destruct fresnel_version as [s|] eqn:Hv.
  - destruct (parse s) as [v|e] eqn:Hp.
    + now rewrite !(check_version_present _ s v Hv Hp).
    + now rewrite !(check_version_invalid _ s e Hv Hp).
  - now rewrite !(check_version_absent _ Hv).
Qed.

(** The check leaves the device and tracer state alone. *)
Lemma check_version_world p :
  world (snd (check_version G p)) = world p.
Proof.
  destruct fresnel_version as [s|] eqn:Hv.
  - destruct (parse s) as [v|e] eqn:Hp.
    + rewrite (check_version_present _ s v Hv Hp). simpl.
      now destruct (_ || _).
    + now rewrite (check_version_invalid _ s e Hv Hp).
  - now rewrite (check_version_absent _ Hv).
Qed.

(** When the check returns, the backend has a version and it parses. *)
Lemma check_version_Ok_inv p u p' :
  check_version G p = (Ok u, p') ->
  exists s v, fresnel_version = Some s /\ parse s = Ok v.
Proof.
  intros H. destruct fresnel_version as [s|] eqn:Hv.
  - destruct (parse s) as [v|e] eqn:Hp.
    + now exists s, v.
    + rewrite (check_version_invalid _ s e Hv Hp) in H. discriminate H.
  - rewrite (check_version_absent _ Hv) in H. discriminate H.
Qed.
End VersionCheck.

(** ** What [render_scene] computes *)

Section RenderScene.
Context {P : Packaging} {F : Fresnel} {T : FresnelTracer}.
Variable G : Globals.

(** Assignment of a source with as many rows as the array. *)
Lemma assign_rows_same_length {A} (conv : A -> A) (n : nat) (src : list A) :
  length src = n -> assign_rows conv n src = Ok (map conv src).
Proof.
  intros H. unfold assign_rows. apply Nat.eqb_eq in H. now rewrite H.
Qed.

Lemma rows_after_same_length {A} (conv : A -> A) (n : nat) (src : list A) :
  length src = n -> rows_after conv n src = map conv src.
Proof.
  intros H. unfold rows_after. now rewrite (assign_rows_same_length conv n src H).
Qed.

(** An assignment that goes through fills the array: [n] rows. *)
Lemma assign_rows_length {A} (conv : A -> A) (n : nat) (src rows : list A) :
  assign_rows conv n src = Ok rows -> length rows = n.
Proof.
  unfold assign_rows. destruct (length src =? n)%nat eqn:Hn.
  - intros H. injection H as <-. rewrite length_map. now apply Nat.eqb_eq.
  - destruct src as [|row [|row' src]]; try discriminate.
    intros H. injection H as <-. apply length_replicate.
Qed.

Lemma consistent_assignable snapshot : consistent snapshot -> assignable snapshot.
Proof.
  intros [Hpos Hori]. unfold assignable.
  now rewrite (assign_rows_same_length _ _ _ Hpos), (assign_rows_same_length _ _ _ Hori).
Qed.

(** [render_scene] run symbolically: the five places where it can stop
    early, in the order the script reaches them, and the scene otherwise. *)
Lemma render_scene_unfold snapshot p :
  render_scene G snapshot p =
    match check_version G p with
    | (Raise e, p1) => (Raise e, p1)
    | (Ok _, p1) =>
        match c_box (configuration snapshot) !! 0%nat with
        | None => (Raise IndexError, p1)
        | Some L =>
            match convex_polyhedron_from_vertices vertices with
            | Raise e => (Raise e, p1)
            | Ok pi =>
                match assign_rows buffer_vec3 (p_N (particles snapshot))
                        (p_position (particles snapshot)) with
                | Raise e => (Raise e, p1)
                | Ok _ =>
                    match assign_rows buffer_quat (p_N (particles snapshot))
                            (p_orientation (particles snapshot)) with
                    | Raise e => (Raise e, p1)
                    | Ok _ => (Ok (assembled_scene G snapshot L pi), p1)
                    end
                end
            end
        end
    end.
Proof.
  unfold render_scene, bind at 1.
  destruct (check_version G p) as [[u|e] p1]; [|reflexivity].
  unfold bind, lift, getitem.
  destruct (c_box (configuration snapshot) !! 0%nat) as [L|]; [|reflexivity].
  destruct (convex_polyhedron_from_vertices vertices) as [pi|e]; [|reflexivity].
  unfold assembled_scene, rows_after.
  cbn. unfold set_position, set_orientation, slice_all. cbn.
  destruct (assign_rows buffer_vec3 (p_N (particles snapshot))
              (p_position (particles snapshot))) as [pos|e]; [|reflexivity].
  cbn.
  destruct (assign_rows buffer_quat (p_N (particles snapshot))
              (p_orientation (particles snapshot))) as [ori|e]; reflexivity.
Qed.

(** A call that returns a scene went through every step. *)
Lemma render_scene_Ok_inv snapshot p sc p' :
  render_scene G snapshot p = (Ok sc, p') ->
  exists L pi,
    check_version G p = (Ok tt, p') /\
    c_box (configuration snapshot) !! 0%nat = Some L /\
    convex_polyhedron_from_vertices vertices = Ok pi /\
    assignable snapshot /\
    sc = assembled_scene G snapshot L pi.
Proof.
  rewrite render_scene_unfold. unfold assignable.
  destruct (check_version G p) as [[[]|e] p1]; [|discriminate].
  destruct (c_box (configuration snapshot) !! 0%nat) as [L|]; [|discriminate].
  destruct (convex_polyhedron_from_vertices vertices) as [pi|e]; [|discriminate].
  destruct (assign_rows buffer_vec3 _ _) as [pos|e]; [|discriminate].
  destruct (assign_rows buffer_quat _ _) as [ori|e]; [|discriminate].
  intros H. injection H as <- <-.
  exists L, pi. repeat split; reflexivity.
Qed.

(** With a backend that has a version and builds the descriptor, a
    consistent snapshot with a box gives a scene. *)
Lemma render_scene_returns snapshot p s v L pi :
  fresnel_version = Some s -> parse s = Ok v ->
  c_box (configuration snapshot) !! 0%nat = Some L ->
  convex_polyhedron_from_vertices vertices = Ok pi ->
  consistent snapshot ->
  render_scene G snapshot p =
    (Ok (assembled_scene G snapshot L pi), snd (check_version G p)).
Proof.
  intros Hv Hp HL Hpi [Hpos Hori].
  rewrite render_scene_unfold, (check_version_present G p s v Hv Hp), HL, Hpi.
  now rewrite (assign_rows_same_length _ _ _ Hpos), (assign_rows_same_length _ _ _ Hori).
Qed.

(** The result of [render_scene], a scene or an exception, is the same
    from every process state. *)
Lemma render_scene_result snapshot p1 p2 :
  fst (render_scene G snapshot p1) = fst (render_scene G snapshot p2).
Proof.
  rewrite !render_scene_unfold.
  pose proof (check_version_result G p1 p2) as Hc.
  destruct (check_version G p1) as [[u1|e1] q1], (check_version G p2) as [[u2|e2] q2];
    simpl in Hc; try discriminate Hc.
  - destruct (c_box (configuration snapshot) !! 0%nat); [|reflexivity].
    destruct (convex_polyhedron_from_vertices vertices); [|reflexivity].
    destruct (assign_rows buffer_vec3 _ _); [|reflexivity].
    now destruct (assign_rows buffer_quat _ _).
  - injection Hc as ->. reflexivity.
Qed.

(** [render] is [render_scene] followed by one call of the tracer. *)
Lemma render_Ok_inv snapshot p img p' :
  render G snapshot p = (Ok img, p') ->
  exists sc p1 px,
    render_scene G snapshot p = (Ok sc, p1) /\
    sample (tracer G) sc 500 (world p1) = (Ok px, world p') /\
    warnings p' = warnings p1 /\
    img = {| image_data := repr_png px |}.
Proof.
  unfold render. intros H.
  apply bind_Ok_inv in H as (sc & p1 & Hsc & H).
  apply bind_Ok_inv in H as (px & p2 & Hpx & H).
  unfold ret in H. injection H as <- <-.
  unfold tracer_sample in Hpx.
  destruct (sample (tracer G) sc 500 (world p1)) as [r w] eqn:Hs.
  injection Hpx as -> <-.
  exists sc, p1, px. repeat split; try reflexivity; assumption.
Qed.

Lemma render_returns snapshot p sc p1 px w :
  render_scene G snapshot p = (Ok sc, p1) ->
  sample (tracer G) sc 500 (world p1) = (Ok px, w) ->
  render G snapshot p =
    (Ok {| image_data := repr_png px |}, {| warnings := warnings p1; world := w |}).
Proof.
  intros Hsc Hs. unfold render.
  rewrite (bind_Ok _ _ _ _ _ Hsc).
  unfold bind, tracer_sample, ret. rewrite Hs. reflexivity.
Qed.
End RenderScene.

(** ** The claims *)

(** C1, the failing case.  Against a backend whose module has no [version]
    attribute, [render] raises [AttributeError] from the version check: the
    condition on line 16 is true, and the message built on line 20 reads
    [fresnel.version.version].  No warning is issued (the log is still empty)
    and no scene is built (the tracer was never called). *)
Theorem render_raises_without_version_attribute :
  fst (Mock.run_render None Mock.snapshot3) = Raise (AttributeError "version")
  /\ warnings (snd (Mock.run_render None Mock.snapshot3)) = []
  /\ world (snd (Mock.run_render None Mock.snapshot3)) = 0%nat.
Proof.
  assert (H : Mock.run_render None Mock.snapshot3
              = (Raise (AttributeError "version"), Mock.process0 None)).
  { unfold Mock.run_render, render.
    apply bind_Raise. rewrite render_scene_unfold.
    now rewrite check_version_absent. }
  rewrite H. repeat split.
Qed.

Section Claims.
Context {P : Packaging} {F : Fresnel} {T : FresnelTracer}.
Variable G : Globals.

(** C2.  Scene construction is a function of the snapshot data: two calls
    on snapshots with the same box, particle count, positions and
    orientations end the same way, with the same scene (device, geometry
    with its instances, material and outline width, box outline, lights,
    camera, background) or the same exception, whatever the warnings
    already issued and whatever state the device and tracer are in, so in
    particular for two successive calls. *)
Theorem scene_is_function_of_snapshot (s1 s2 : Snapshot) (p1 p2 : Process) :
  c_box (configuration s1) = c_box (configuration s2) ->
  p_N (particles s1) = p_N (particles s2) ->
  p_position (particles s1) = p_position (particles s2) ->
  p_orientation (particles s1) = p_orientation (particles s2) ->
  fst (render_scene G s1 p1) = fst (render_scene G s2 p2).
Proof.
  destruct s1 as [[b1] [n1 pos1 ori1]], s2 as [[b2] [n2 pos2 ori2]]; simpl.
  intros -> -> -> ->. apply render_scene_result.
Qed.

(** C3, as the code has it.  For a snapshot whose position and orientation
    arrays have [N] rows, the first geometry of the scene [render] builds is
    the polyhedron geometry with [N] instances, and for every [i < N]
    instance [i] holds row [i] of the snapshot's positions and row [i] of
    its orientations, each converted to the precision of the library's
    arrays: the order is kept, the values are the converted ones. *)
Theorem instances_hold_converted_snapshot_rows
    (snapshot : Snapshot) (p p' : Process) (sc : Scene) :
  length (p_position (particles snapshot)) = p_N (particles snapshot) ->
  length (p_orientation (particles snapshot)) = p_N (particles snapshot) ->
  render_scene G snapshot p = (Ok sc, p') ->
  exists g,
    geometry sc !! 0%nat = Some (GConvexPolyhedron g) /\
    geo_N g = p_N (particles snapshot) /\
    length (position g) = p_N (particles snapshot) /\
    length (orientation g) = p_N (particles snapshot) /\
    forall i, (i < p_N (particles snapshot))%nat ->
      (exists x, p_position (particles snapshot) !! i = Some x /\
                 position g !! i = Some (buffer_vec3 x)) /\
      (exists q, p_orientation (particles snapshot) !! i = Some q /\
                 orientation g !! i = Some (buffer_quat q)).
Proof.
  intros Hpos Hori H.
  apply render_scene_Ok_inv in H as (L & pi & _ & _ & _ & _ & ->).
  eexists. split; [reflexivity|]. simpl.
  rewrite (rows_after_same_length _ _ _ Hpos), (rows_after_same_length _ _ _ Hori).
  rewrite !length_map.
  repeat split; try assumption.
  - destruct (lookup_lt_is_Some_2 (p_position (particles snapshot)) i) as [x Hx];
      [lia|].
    exists x. split; [exact Hx|]. now rewrite list_lookup_fmap, Hx.
  - destruct (lookup_lt_is_Some_2 (p_orientation (particles snapshot)) i) as [q Hq];
      [lia|].
    exists q. split; [exact Hq|]. now rewrite list_lookup_fmap, Hq.
Qed.

(** Rows the conversion leaves alone are found in the instances as the
    snapshot has them. *)
Lemma instances_equal_unconverted_rows
    (snapshot : Snapshot) (p p' : Process) (sc : Scene) :
  consistent snapshot ->
  (forall x, x ∈ p_position (particles snapshot) -> buffer_vec3 x = x) ->
  (forall q, q ∈ p_orientation (particles snapshot) -> buffer_quat q = q) ->
  render_scene G snapshot p = (Ok sc, p') ->
  exists g,
    geometry sc !! 0%nat = Some (GConvexPolyhedron g) /\
    position g = p_position (particles snapshot) /\
    orientation g = p_orientation (particles snapshot).
Proof.
  intros [Hpos Hori] Hx Hq H.
  apply render_scene_Ok_inv in H as (L & pi & _ & _ & _ & _ & ->).
  eexists. split; [reflexivity|]. simpl.
  rewrite (rows_after_same_length _ _ _ Hpos), (rows_after_same_length _ _ _ Hori).
  split.
  - rewrite <- (map_id (p_position (particles snapshot))) at 2.
    apply map_ext_in. intros x Hin. apply Hx. now apply list_elem_of_In.
  - rewrite <- (map_id (p_orientation (particles snapshot))) at 2.
    apply map_ext_in. intros q Hin. apply Hq. now apply list_elem_of_In.
Qed.

(** With one row given for [N] instances the call returns as well: every
    instance gets that row, and the snapshot has no row to compare the
    instances after the first with. *)
Lemma one_row_is_given_to_every_instance
    (snapshot : Snapshot) (p p' : Process) (sc : Scene) (x : vec3) (q : quat) :
  p_N (particles snapshot) <> 1%nat ->
  p_position (particles snapshot) = [x] ->
  p_orientation (particles snapshot) = [q] ->
  render_scene G snapshot p = (Ok sc, p') ->
  exists g,
    geometry sc !! 0%nat = Some (GConvexPolyhedron g) /\
    position g = replicate (p_N (particles snapshot)) (buffer_vec3 x) /\
    orientation g = replicate (p_N (particles snapshot)) (buffer_quat q).
Proof.
  intros HN Hpos Hori H.
  apply render_scene_Ok_inv in H as (L & pi & _ & _ & _ & _ & ->).
  eexists. split; [reflexivity|]. simpl.
  unfold rows_after, assign_rows. rewrite Hpos, Hori. simpl.
  destruct (p_N (particles snapshot)) as [|[|n]]; [| congruence |]; split; reflexivity.
Qed.

(** C4.  Camera: with [L] the first component of the snapshot's box, the
    scene has an orthographic camera at (2L, L, 2L) looking at (0, 0, 0)
    with up vector (0, 1, 0) and height 1.4 L + 1, in binary64 arithmetic. *)
Theorem camera_is_orthographic_from_box_length
    (snapshot : Snapshot) (p p' : Process) (sc : Scene) :
  render_scene G snapshot p = (Ok sc, p') ->
  exists L,
    c_box (configuration snapshot) !! 0%nat = Some L /\
    camera sc =
      Some {| cam_position := floats (2 * L) L (2 * L);
              look_at := ints 0 0 0;
              up := ints 0 1 0;
              height := PyFloat (1.4 * L + 1) |}.
Proof.
  intros H.
  apply render_scene_Ok_inv in H as (L & pi & _ & HL & _ & _ & ->).
  exists L. split; [exact HL|]. simpl.
  now rewrite (float_mul_comm 2 L), (float_mul_comm 1.4 L).
Qed.

(** C5.  Lighting: the scene has exactly two lights, whatever the
    snapshot: one along +Z with colour (0.5, 0.5, 0.5) and half angle pi,
    one along (1, 1, 1) with colour (1.1, 1.1, 1.1) and half angle pi/3. *)
Theorem lights_are_the_fixed_pair
    (snapshot : Snapshot) (p p' : Process) (sc : Scene) :
  render_scene G snapshot p = (Ok sc, p') ->
  lights sc =
    Some [ {| direction := (PyInt 0, PyInt 0, PyInt 1);
              light_color := (PyFloat 0.5, PyFloat 0.5, PyFloat 0.5);
              theta := math_pi |};
           {| direction := (PyInt 1, PyInt 1, PyInt 1);
              light_color := (PyFloat 1.1, PyFloat 1.1, PyFloat 1.1);
              theta := (math_pi / 3)%float |} ].
Proof.
  intros H.
  apply render_scene_Ok_inv in H as (L & pi & _ & _ & _ & _ & ->).
  reflexivity.
Qed.

(** C6.  Material and outlines: the scene holds two geometries. The first
    is the polyhedron geometry, whose one material (shared by all its
    instances) has the linear conversion of (0.01, 0.74, 0.26) as colour
    and roughness 0.5, and whose outline width is 0.01. The second is the
    one box outline, built from the snapshot's box with radius 0.02. *)
Theorem material_and_outlines
    (snapshot : Snapshot) (p p' : Process) (sc : Scene) :
  render_scene G snapshot p = (Ok sc, p') ->
  exists g,
    geometry sc =
      [ GConvexPolyhedron g;
        GBox {| box := c_box (configuration snapshot); box_radius := 0.02 |} ] /\
    material g =
      Some {| color := color_linear [0.01; 0.74; 0.26]%float; roughness := 0.5 |} /\
    outline_width g = Some 0.01%float.
Proof.
  intros H.
  apply render_scene_Ok_inv in H as (L & pi & _ & _ & _ & _ & ->).
  eexists. repeat split.
Qed.

(** C7.  Output shape and sampling: the image [render] returns is the PNG
    of what the module's tracer, made for 300 by 300 pixels, sampled from
    the scene with 500 samples; the snapshot enters through the scene only. *)
Theorem image_is_sampled_at_300x300_with_500_samples
    (snapshot : Snapshot) (p p' : Process) (img : Image) :
  import_module = Ok G ->
  render G snapshot p = (Ok img, p') ->
  tracer_w (tracer G) = 300%Z /\ tracer_h (tracer G) = 300%Z /\
  exists sc p1 px,
    render_scene G snapshot p = (Ok sc, p1) /\
    sample (Path DefaultDevice 300 300) sc 500 (world p1) = (Ok px, world p') /\
    img = {| image_data := repr_png px |}.
Proof.
  intros HG H.
  assert (Ht : tracer G = Path DefaultDevice 300 300).
  { unfold import_module in HG.
    destruct (parse "0.13.0"); [|discriminate HG].
    destruct (parse "0.14.0"); [|discriminate HG].
    injection HG as <-. reflexivity. }
  apply render_Ok_inv in H as (sc & p1 & px & Hsc & Hs & _ & ->).
  rewrite Ht in *. repeat split.
  exists sc, p1, px. repeat split; assumption.
Qed.

(** C8.  Polyhedron template: the descriptor of the polyhedron geometry is
    what the convex hull helper returns for the fixed list of six vertices
    (-0.5,0,0), (0.5,0,0), (0,-0.5,0), (0,0.5,0), (0,0,-0.5), (0,0,0.5),
    whatever the snapshot. *)
Theorem descriptor_comes_from_the_six_vertices
    (snapshot : Snapshot) (p p' : Process) (sc : Scene) :
  render_scene G snapshot p = (Ok sc, p') ->
  exists g,
    geometry sc !! 0%nat = Some (GConvexPolyhedron g) /\
    convex_polyhedron_from_vertices
      [ (PyFloat (-0.5), PyInt 0, PyInt 0);
        (PyFloat 0.5, PyInt 0, PyInt 0);
        (PyInt 0, PyFloat (-0.5), PyInt 0);
        (PyInt 0, PyFloat 0.5, PyInt 0);
        (PyInt 0, PyInt 0, PyFloat (-0.5));
        (PyInt 0, PyInt 0, PyFloat 0.5) ] = Ok (poly_info g) /\
    length vertices = 6%nat.
Proof.
  intros H.
  apply render_scene_Ok_inv in H as (L & pi & _ & _ & Hpi & _ & ->).
  eexists. split; [reflexivity|]. split; [exact Hpi | reflexivity].
Qed.

(** C9.  Empty snapshot: with no particles and empty arrays, against a
    backend that has a version, builds the descriptor and samples scenes
    whose geometry set is empty, [render] returns an image; the scene it
    was sampled from holds a polyhedron geometry without instances, the
    box outline and the white background. *)
Theorem render_returns_on_empty_snapshot
    (snapshot : Snapshot) (p : Process) (s : string) (v : Version)
    (L : float) (pi : PolyInfo) :
  p_N (particles snapshot) = 0%nat ->
  p_position (particles snapshot) = [] ->
  p_orientation (particles snapshot) = [] ->
  fresnel_version = Some s -> parse s = Ok v ->
  c_box (configuration snapshot) !! 0%nat = Some L ->
  convex_polyhedron_from_vertices vertices = Ok pi ->
  (forall sc w, empty_geometry_set sc ->
     is_ok (fst (sample (tracer G) sc 500 w)) = true) ->
  exists sc g p1 px p',
    render_scene G snapshot p = (Ok sc, p1) /\
    sample (tracer G) sc 500 (world p1) = (Ok px, world p') /\
    render G snapshot p = (Ok {| image_data := repr_png px |}, p') /\
    geometry sc =
      [ GConvexPolyhedron g;
        GBox {| box := c_box (configuration snapshot); box_radius := 0.02 |} ] /\
    geo_N g = 0%nat /\ position g = [] /\ orientation g = [] /\
    background_color sc = Some (PyInt 1, PyInt 1, PyInt 1).
Proof.
  intros HN Hpos Hori Hv Hp HL Hpi Hsample.
  assert (Hc : consistent snapshot).
  { unfold consistent. now rewrite Hpos, Hori, HN. }
  pose proof (render_scene_returns G snapshot p s v L pi Hv Hp HL Hpi Hc) as Hsc.
  set (sc := assembled_scene G snapshot L pi) in *.
  set (p1 := snd (check_version G p)) in *.
  assert (He : empty_geometry_set sc).
  { intros g Hg. subst sc. simpl in Hg.
    apply elem_of_cons in Hg as [Hg|Hg].
    - injection Hg as ->. exact HN.
    - apply elem_of_cons in Hg as [Hg|Hg]; [discriminate Hg|].
      now apply elem_of_nil in Hg. }
  specialize (Hsample sc (world p1) He).
  destruct (sample (tracer G) sc 500 (world p1)) as [[px|e] w] eqn:Hs;
    [|discriminate Hsample].
  eexists sc, _, p1, px, {| warnings := warnings p1; world := w |}.
  split; [exact Hsc|]. split; [exact Hs|].
  split; [exact (render_returns G snapshot p sc p1 px w Hsc Hs)|].
  subst sc. simpl. rewrite HN, Hpos, Hori. repeat split.
Qed.

(** C10.  The camera looks at the first box component only: two snapshots
    whose boxes agree there get the same camera, whatever the other
    components, while each box outline is built from the whole box of its
    snapshot. *)
Theorem camera_depends_on_first_box_component_only
    (s1 s2 : Snapshot) (p1 p2 q1 q2 : Process) (sc1 sc2 : Scene) :
  render_scene G s1 p1 = (Ok sc1, q1) ->
  render_scene G s2 p2 = (Ok sc2, q2) ->
  c_box (configuration s1) !! 0%nat = c_box (configuration s2) !! 0%nat ->
  camera sc1 = camera sc2 /\
  geometry sc1 !! 1%nat =
    Some (GBox {| box := c_box (configuration s1); box_radius := 0.02 |}) /\
  geometry sc2 !! 1%nat =
    Some (GBox {| box := c_box (configuration s2); box_radius := 0.02 |}).
Proof.
  intros H1 H2 Hbox.
  apply render_scene_Ok_inv in H1 as (L1 & pi1 & _ & HL1 & _ & _ & ->).
  apply render_scene_Ok_inv in H2 as (L2 & pi2 & _ & HL2 & _ & _ & ->).
  rewrite HL1, HL2 in Hbox. injection Hbox as ->.
  repeat split.
Qed.
End Claims.

(** ** Errors and effects of [render] *)

Section Effects.
Context {P : Packaging} {F : Fresnel} {T : FresnelTracer}.
Variable G : Globals.

(** [render_scene] changes the process as the version check does, and no more. *)
Lemma render_scene_process snapshot p :
  snd (render_scene G snapshot p) = snd (check_version G p).
Proof.
  rewrite render_scene_unfold.
  destruct (check_version G p) as [[u|e] p1]; [|reflexivity].
  destruct (c_box (configuration snapshot) !! 0%nat); [|reflexivity].
  destruct (convex_polyhedron_from_vertices vertices); [|reflexivity].
  destruct (assign_rows buffer_vec3 _ _); [|reflexivity].
  now destruct (assign_rows buffer_quat _ _).
Qed.

(** [render] run symbolically on top of [render_scene]. *)
Lemma render_unfold snapshot p :
  render G snapshot p =
    match render_scene G snapshot p with
    | (Raise e, p1) => (Raise e, p1)
    | (Ok sc, p1) =>
        match sample (tracer G) sc 500 (world p1) with
        | (Ok px, w) =>
            (Ok {| image_data := repr_png px |}, {| warnings := warnings p1; world := w |})
        | (Raise e, w) => (Raise e, {| warnings := warnings p1; world := w |})
        end
    end.
Proof.
  unfold render, bind at 1.
  destruct (render_scene G snapshot p) as [[sc|e] p1]; [|reflexivity].
  unfold bind, tracer_sample, ret.
  now destruct (sample (tracer G) sc 500 (world p1)) as [[px|e] w].
Qed.

(** The warnings after [render] are the warnings after the version check. *)
Lemma render_warnings snapshot p :
  warnings (snd (render G snapshot p)) = warnings (snd (check_version G p)).
Proof.
  rewrite render_unfold, <- (render_scene_process snapshot p).
  destruct (render_scene G snapshot p) as [[sc|e] p1]; [|reflexivity].
  now destruct (sample (tracer G) sc 500 (world p1)) as [[px|e] w].
Qed.

(** When [render_scene] raises, [render] raises the same and the tracer is
    left alone. *)
Lemma render_Raise_in_scene snapshot p e :
  fst (render_scene G snapshot p) = Raise e ->
  fst (render G snapshot p) = Raise e /\ world (snd (render G snapshot p)) = world p.
Proof.
  intros H. rewrite render_unfold.
  pose proof (render_scene_process snapshot p) as Hp.
  destruct (render_scene G snapshot p) as [[sc|e'] p1]; simpl in H, Hp; [discriminate H|].
  injection H as ->. simpl. split; [reflexivity|].
  rewrite Hp. apply check_version_world.
Qed.

(** X1.  Against a backend without a [version] attribute [render] raises
    [AttributeError] for every snapshot and from every process state, and
    leaves the process as it found it: no warning, no call of the tracer. *)
Theorem render_without_version_always_raises (snapshot : Snapshot) (p : Process) :
  fresnel_version = None ->
  render G snapshot p = (Raise (AttributeError "version"), p).
Proof.
  intros Hv. unfold render. apply bind_Raise.
  rewrite render_scene_unfold. now rewrite (check_version_absent G p Hv).
Qed.

(** X2.  A version string that [parse] refuses: [render] raises what [parse]
    raised, before it looks at the snapshot, and leaves the process as it
    found it. *)
Theorem render_propagates_invalid_version
    (snapshot : Snapshot) (p : Process) (s : string) (e : exn) :
  fresnel_version = Some s -> parse s = Raise e ->
  render G snapshot p = (Raise e, p).
Proof.
  intros Hv Hp. unfold render. apply bind_Raise.
  rewrite render_scene_unfold. now rewrite (check_version_invalid G p s e Hv Hp).
Qed.

(** X3.  A version below [FRESNEL_MIN_VERSION] or not below
    [FRESNEL_MAX_VERSION]: [render] issues one warning, whose text names the
    version the backend reports, whatever happens to the rest of the call
    (it may still raise on the snapshot or in the backend). *)
Theorem render_warns_once_outside_range
    (snapshot : Snapshot) (p : Process) (s : string) (v : Version) :
  fresnel_version = Some s -> parse s = Ok v ->
  version_lt v (FRESNEL_MIN_VERSION G) = true
    \/ version_ge v (FRESNEL_MAX_VERSION G) = true ->
  warnings (snd (render G snapshot p))
    = warnings p ++ ["Unsupported fresnel version " +:+ s +:+ " - expect errors."].
Proof.
  intros Hv Hp Hout.
  rewrite render_warnings, (check_version_present G p s v Hv Hp).
  destruct Hout as [-> | ->]; [|rewrite orb_true_r]; reflexivity.
Qed.

(** X4.  A version inside the range: [render] issues no warning. *)
Theorem render_is_silent_in_range
    (snapshot : Snapshot) (p : Process) (s : string) (v : Version) :
  fresnel_version = Some s -> parse s = Ok v ->
  version_lt v (FRESNEL_MIN_VERSION G) = false ->
  version_ge v (FRESNEL_MAX_VERSION G) = false ->
  warnings (snd (render G snapshot p)) = warnings p.
Proof.
  intros Hv Hp Hlt Hge.
  now rewrite render_warnings, (check_version_silent_in_range G p s v Hv Hp Hlt Hge).
Qed.

(** X5.  [render] only ever appends to the warnings, and appends at most
    one, whether it returns or raises. *)
Theorem render_appends_at_most_one_warning (snapshot : Snapshot) (p : Process) :
  exists ws,
    warnings (snd (render G snapshot p)) = warnings p ++ ws /\ (length ws <= 1)%nat.
Proof.
  rewrite render_warnings.
  destruct fresnel_version as [s|] eqn:Hv.
  - destruct (parse s) as [v|e] eqn:Hp.
    + rewrite (check_version_present G p s v Hv Hp).
      destruct (_ || _); simpl.
      * eexists [_]. split; [reflexivity | simpl; lia].
      * exists []. split; [now rewrite app_nil_r | simpl; lia].
    + rewrite (check_version_invalid G p s e Hv Hp).
      exists []. split; [now rewrite app_nil_r | simpl; lia].
  - rewrite (check_version_absent G p Hv).
    exists []. split; [now rewrite app_nil_r | simpl; lia].
Qed.

(** X6.  A snapshot whose box tuple is empty: once the version check is
    through, [render] raises [IndexError] from [box[0]], before the convex
    hull helper or the snapshot's arrays are looked at, and the tracer is
    not called. *)
Theorem render_raises_IndexError_on_empty_box
    (snapshot : Snapshot) (p : Process) (s : string) (v : Version) :
  fresnel_version = Some s -> parse s = Ok v ->
  c_box (configuration snapshot) = [] ->
  fst (render G snapshot p) = Raise IndexError /\
  world (snd (render G snapshot p)) = world p.
Proof.
  intros Hv Hp Hbox. apply render_Raise_in_scene.
  rewrite render_scene_unfold, (check_version_present G p s v Hv Hp), Hbox.
  reflexivity.
Qed.

(** X7.  A failure of the convex hull helper reaches the caller unchanged,
    and the tracer is not called. *)
Theorem render_propagates_descriptor_failure
    (snapshot : Snapshot) (p : Process) (s : string) (v : Version) (L : float) (e : exn) :
  fresnel_version = Some s -> parse s = Ok v ->
  c_box (configuration snapshot) !! 0%nat = Some L ->
  convex_polyhedron_from_vertices vertices = Raise e ->
  fst (render G snapshot p) = Raise e /\
  world (snd (render G snapshot p)) = world p.
Proof.
  intros Hv Hp HL Hpi. apply render_Raise_in_scene.
  rewrite render_scene_unfold, (check_version_present G p s v Hv Hp), HL, Hpi.
  reflexivity.
Qed.

(** X8.  A failure of the tracer reaches the caller unchanged: [render]
    does not catch it and does not sample a second time, so the device and
    tracer are left in the state the failed call put them in. *)
Theorem render_propagates_sampling_failure
    (snapshot : Snapshot) (p p1 : Process) (sc : Scene) (e : exn) (w : World) :
  render_scene G snapshot p = (Ok sc, p1) ->
  sample (tracer G) sc 500 (world p) = (Raise e, w) ->
  fst (render G snapshot p) = Raise e /\ world (snd (render G snapshot p)) = w.
Proof.
  intros Hsc Hs.
  assert (Hw : world p1 = world p).
  { change p1 with (snd (Ok sc, p1)). rewrite <- Hsc, render_scene_process.
    apply check_version_world. }
  rewrite render_unfold, Hsc, Hw, Hs. split; reflexivity.
Qed.

(** X9.  [render] calls the tracer once, on the scene it built and in the
    state the device and tracer were in when it was called, or not at all
    when building the scene raised. *)
Theorem render_samples_exactly_once (snapshot : Snapshot) (p : Process) :
  world (snd (render G snapshot p)) =
    match fst (render_scene G snapshot p) with
    | Ok sc => snd (sample (tracer G) sc 500 (world p))
    | Raise _ => world p
    end.
Proof.
  rewrite render_unfold.
  pose proof (render_scene_process snapshot p) as Hp.
  pose proof (check_version_world G p) as Hw. rewrite <- Hp in Hw.
  destruct (render_scene G snapshot p) as [[sc|e] p1]; simpl in Hw |- *.
  - rewrite Hw. now destruct (sample (tracer G) sc 500 (world p)) as [[px|e] w].
  - exact Hw.
Qed.

(** X10.  What a call that returns needed: a backend whose module has a
    [version] that parses, a box with a first component, and a convex hull
    helper that built the descriptor. *)
Theorem render_returns_only_if
    (snapshot : Snapshot) (p p' : Process) (img : Image) :
  render G snapshot p = (Ok img, p') ->
  exists s v L pi,
    fresnel_version = Some s /\ parse s = Ok v /\
    c_box (configuration snapshot) !! 0%nat = Some L /\
    convex_polyhedron_from_vertices vertices = Ok pi.
Proof.
  intros H.
  apply render_Ok_inv in H as (sc & p1 & px & Hsc & _).
  apply render_scene_Ok_inv in Hsc as (L & pi & Hc & HL & Hpi & _).
  apply check_version_Ok_inv in Hc as (s & v & Hv & Hp).
  now exists s, v, L, pi.
Qed.

(** X11.  For any number of particles: with a backend that has a version
    that parses, builds the descriptor and samples what it is given, a
    snapshot with a box and arrays of the announced length gives an image,
    the PNG of what the tracer sampled from the scene. *)
Theorem render_returns_on_consistent_snapshot
    (snapshot : Snapshot) (p : Process) (s : string) (v : Version)
    (L : float) (pi : PolyInfo) :
  fresnel_version = Some s -> parse s = Ok v ->
  c_box (configuration snapshot) !! 0%nat = Some L ->
  convex_polyhedron_from_vertices vertices = Ok pi ->
  length (p_position (particles snapshot)) = p_N (particles snapshot) ->
  length (p_orientation (particles snapshot)) = p_N (particles snapshot) ->
  (forall sc w, is_ok (fst (sample (tracer G) sc 500 w)) = true) ->
  exists sc px,
    fst (render_scene G snapshot p) = Ok sc /\
    fst (sample (tracer G) sc 500 (world p)) = Ok px /\
    fst (render G snapshot p) = Ok {| image_data := repr_png px |}.
Proof.
  intros Hv Hp HL Hpi Hpos Hori Hsample.
  pose proof (render_scene_returns G snapshot p s v L pi Hv Hp HL Hpi
                (conj Hpos Hori)) as Hr.
  specialize (Hsample (assembled_scene G snapshot L pi) (world p)).
  destruct (sample (tracer G) (assembled_scene G snapshot L pi) 500 (world p))
    as [[px|e] w] eqn:Hs; [|discriminate Hsample].
  exists (assembled_scene G snapshot L pi), px.
  rewrite render_unfold, Hr, check_version_world, Hs. repeat split.
Qed.


(** X13.  The background of every scene is white, (1, 1, 1), and none of
    lights, camera and background is left at the library's default. *)
Theorem scene_background_is_white
    (snapshot : Snapshot) (p p' : Process) (sc : Scene) :
  render_scene G snapshot p = (Ok sc, p') ->
  background_color sc = Some (PyInt 1, PyInt 1, PyInt 1) /\
  is_Some (lights sc) /\ is_Some (camera sc).
Proof.
  intros H.
  apply render_scene_Ok_inv in H as (L & pi & _ & _ & _ & _ & ->).
  simpl. repeat split; eexists; reflexivity.
Qed.

(** X14.  Two calls in a row against a backend outside the range call
    [warnings.warn] twice with the same text: nothing in [render] remembers
    that the warning was already given. *)
Theorem two_calls_warn_twice
    (s1 s2 : Snapshot) (p : Process) (s : string) (v : Version) :
  fresnel_version = Some s -> parse s = Ok v ->
  version_lt v (FRESNEL_MIN_VERSION G) = true
    \/ version_ge v (FRESNEL_MAX_VERSION G) = true ->
  warnings (snd (render G s2 (snd (render G s1 p))))
    = warnings p ++ [ "Unsupported fresnel version " +:+ s +:+ " - expect errors.";
                      "Unsupported fresnel version " +:+ s +:+ " - expect errors." ].
Proof.
  intros Hv Hp Hout.
  assert (Hb : version_lt v (FRESNEL_MIN_VERSION G)
               || version_ge v (FRESNEL_MAX_VERSION G) = true).
  { destruct Hout as [-> | ->]; [reflexivity | apply orb_true_r]. }
  rewrite render_warnings, (check_version_present G _ s v Hv Hp), Hb. simpl.
  rewrite render_warnings, (check_version_present G p s v Hv Hp), Hb. simpl.
  now rewrite <- app_assoc.
Qed.
End Effects.

(** ** The claims on the concrete backend *)

Import Mock.

(** The version check on the concrete backend: below the range, at its upper
    end, inside it, and on a string that is no version. *)
Example version_0_12_0_warns_once :
  Mock.run_scene (Some "0.12.0") Mock.snapshot0
    = (Ok (Mock.scene (Some "0.12.0") Mock.snapshot0),
       Mock.process (Some "0.12.0")
         ["Unsupported fresnel version 0.12.0 - expect errors."] 0).
Proof. reflexivity. Qed.

Example version_0_14_0_warns_once :
  Mock.run_scene (Some "0.14.0") Mock.snapshot0
    = (Ok (Mock.scene (Some "0.14.0") Mock.snapshot0),
       Mock.process (Some "0.14.0")
         ["Unsupported fresnel version 0.14.0 - expect errors."] 0).
Proof. reflexivity. Qed.

Example version_0_13_2_is_silent :
  Mock.run_scene (Some "0.13.2") Mock.snapshot0
    = (Ok (Mock.scene (Some "0.13.2") Mock.snapshot0), Mock.process0 (Some "0.13.2")).
Proof. reflexivity. Qed.

Example version_absent_raises_in_scene_construction :
  Mock.run_scene None Mock.snapshot0
    = (Raise (AttributeError "version"), Mock.process0 None).
Proof. reflexivity. Qed.

Example module_import_on_concrete_backend :
  import_module = Ok Mock.globals.
Proof. reflexivity. Qed.

(** Two boxes with the same first component: one camera, two outlines. *)
Example flat_box_changes_the_outline_only :
  camera (Mock.scene (Some "0.13.2") Mock.snapshot3)
    = camera (Mock.scene (Some "0.13.2") Mock.snapshot3_flat) /\
  geometry (Mock.scene (Some "0.13.2") Mock.snapshot3) !! 1%nat
    <> geometry (Mock.scene (Some "0.13.2") Mock.snapshot3_flat) !! 1%nat.
Proof.
  split; [reflexivity|]. intros H.
  apply (f_equal (fun o =>
           match o with
           | Some (GBox b) =>
               match box b !! 1%nat with
               | Some Ly => PrimFloat.eqb Ly 12
               | None => false
               end
           | _ => false
           end)) in H.
  vm_compute in H. discriminate H.
Qed.

(** C2 on the concrete backend: a first call, then a second call on a
    snapshot with the same data, from the process the first call left. *)
Lemma scene_is_function_of_snapshot_witness :
  fst (render_scene Mock.globals Mock.snapshot3 (Mock.process0 (Some "0.13.2")))
    = fst (render_scene Mock.globals Mock.snapshot3_again (Mock.process1 (Some "0.13.2"))).
Proof.
  apply (scene_is_function_of_snapshot Mock.globals Mock.snapshot3 Mock.snapshot3_again);
    reflexivity.
Defined.

(** C3 as it was claimed fails on the concrete backend, whose arrays are
    binary32: the snapshot has one particle at x = 0.1, the call returns, and
    the instance is not at the snapshot's position. *)
Lemma stored_position_differs_from_snapshot_position :
  exists sc g,
    Mock.run_scene (Some "0.13.2") Mock.snapshot_tenth
      = (Ok sc, Mock.process0 (Some "0.13.2")) /\
    geometry sc !! 0%nat = Some (GConvexPolyhedron g) /\
    p_position (particles Mock.snapshot_tenth) !! 0%nat = Some (0.1, 0, 0)%float /\
    position g !! 0%nat <> p_position (particles Mock.snapshot_tenth) !! 0%nat.
Proof.
  eexists _, _. split; [reflexivity|]. split; [reflexivity|]. split; [reflexivity|].
  intros H.
  apply (f_equal (fun o =>
           match o with
           | Some (x, _, _) => PrimFloat.eqb x 0.1
           | None => false
           end)) in H.
  vm_compute in H. discriminate H.
Qed.

(** C3 as amended on the concrete backend, three particles. *)
Lemma instances_hold_converted_snapshot_rows_witness :
  exists g,
    geometry (Mock.scene (Some "0.13.2") Mock.snapshot3) !! 0%nat
      = Some (GConvexPolyhedron g) /\
    geo_N g = 3%nat /\
    length (position g) = 3%nat /\
    length (orientation g) = 3%nat /\
    forall i, (i < 3)%nat ->
      (exists x, p_position (particles Mock.snapshot3) !! i = Some x /\
                 position g !! i = Some (buffer_vec3 x)) /\
      (exists q, p_orientation (particles Mock.snapshot3) !! i = Some q /\
                 orientation g !! i = Some (buffer_quat q)).
Proof.
  apply (instances_hold_converted_snapshot_rows Mock.globals Mock.snapshot3
           (Mock.process0 (Some "0.13.2")) (Mock.process0 (Some "0.13.2")));
    reflexivity.
Defined.

(** C4 on the concrete backend, box length 10. *)
Lemma camera_is_orthographic_from_box_length_witness :
  exists L,
    c_box (configuration Mock.snapshot3) !! 0%nat = Some L /\
    camera (Mock.scene (Some "0.13.2") Mock.snapshot3) =
      Some {| cam_position := floats (2 * L) L (2 * L);
              look_at := ints 0 0 0;
              up := ints 0 1 0;
              height := PyFloat (1.4 * L + 1) |}.
Proof.
  apply (camera_is_orthographic_from_box_length Mock.globals Mock.snapshot3
           (Mock.process0 (Some "0.13.2")) (Mock.process0 (Some "0.13.2"))).
  reflexivity.
Defined.

(** C5 on the concrete backend. *)
Lemma lights_are_the_fixed_pair_witness :
  lights (Mock.scene (Some "0.13.2") Mock.snapshot3) =
    Some [ {| direction := (PyInt 0, PyInt 0, PyInt 1);
              light_color := (PyFloat 0.5, PyFloat 0.5, PyFloat 0.5);
              theta := math_pi |};
           {| direction := (PyInt 1, PyInt 1, PyInt 1);
              light_color := (PyFloat 1.1, PyFloat 1.1, PyFloat 1.1);
              theta := (math_pi / 3)%float |} ].
Proof.
  apply (lights_are_the_fixed_pair Mock.globals Mock.snapshot3
           (Mock.process0 (Some "0.13.2")) (Mock.process0 (Some "0.13.2"))).
  reflexivity.
Defined.

(** C6 on the concrete backend. *)
Lemma material_and_outlines_witness :
  exists g,
    geometry (Mock.scene (Some "0.13.2") Mock.snapshot3) =
      [ GConvexPolyhedron g;
        GBox {| box := [10; 12; 14; 0; 0; 0]%float; box_radius := 0.02 |} ] /\
    material g =
      Some {| color := color_linear [0.01; 0.74; 0.26]%float; roughness := 0.5 |} /\
    outline_width g = Some 0.01%float.
Proof.
  apply (material_and_outlines Mock.globals Mock.snapshot3
           (Mock.process0 (Some "0.13.2")) (Mock.process0 (Some "0.13.2"))).
  reflexivity.
Defined.

(** C7 on the concrete backend, whose pixels record the sizes and the
    number of samples the tracer was asked for. *)
Lemma image_is_sampled_at_300x300_with_500_samples_witness :
  tracer_w (tracer Mock.globals) = 300%Z /\ tracer_h (tracer Mock.globals) = 300%Z /\
  exists sc p1 px,
    render_scene Mock.globals Mock.snapshot3 (Mock.process0 (Some "0.13.2")) = (Ok sc, p1) /\
    sample (Path DefaultDevice 300 300) sc 500 (world p1)
      = (Ok px, world (Mock.process1 (Some "0.13.2"))) /\
    {| image_data := [] |} = {| image_data := repr_png px |}.
Proof.
  apply (image_is_sampled_at_300x300_with_500_samples Mock.globals Mock.snapshot3
           (Mock.process0 (Some "0.13.2")) (Mock.process1 (Some "0.13.2"))
           {| image_data := [] |});
    reflexivity.
Defined.

(** C8 on the concrete backend. *)
Lemma descriptor_comes_from_the_six_vertices_witness :
  exists g,
    geometry (Mock.scene (Some "0.13.2") Mock.snapshot0) !! 0%nat
      = Some (GConvexPolyhedron g) /\
    convex_polyhedron_from_vertices
      [ (PyFloat (-0.5), PyInt 0, PyInt 0);
        (PyFloat 0.5, PyInt 0, PyInt 0);
        (PyInt 0, PyFloat (-0.5), PyInt 0);
        (PyInt 0, PyFloat 0.5, PyInt 0);
        (PyInt 0, PyInt 0, PyFloat (-0.5));
        (PyInt 0, PyInt 0, PyFloat 0.5) ] = Ok (poly_info g) /\
    length vertices = 6%nat.
Proof.
  apply (descriptor_comes_from_the_six_vertices Mock.globals Mock.snapshot0
           (Mock.process0 (Some "0.13.2")) (Mock.process0 (Some "0.13.2"))).
  reflexivity.
Defined.

(** C9 on the concrete backend. *)
Lemma render_returns_on_empty_snapshot_witness :
  exists sc g p1 px p',
    render_scene Mock.globals Mock.snapshot0 (Mock.process0 (Some "0.13.2")) = (Ok sc, p1) /\
    sample (tracer Mock.globals) sc 500 (world p1) = (Ok px, world p') /\
    render Mock.globals Mock.snapshot0 (Mock.process0 (Some "0.13.2"))
      = (Ok {| image_data := repr_png px |}, p') /\
    geometry sc =
      [ GConvexPolyhedron g;
        GBox {| box := c_box (configuration Mock.snapshot0); box_radius := 0.02 |} ] /\
    geo_N g = 0%nat /\ position g = [] /\ orientation g = [] /\
    background_color sc = Some (PyInt 1, PyInt 1, PyInt 1).
Proof.
  apply (render_returns_on_empty_snapshot Mock.globals Mock.snapshot0
           (Mock.process0 (Some "0.13.2")) "0.13.2" [0; 13; 2]%nat 10%float vertices);
    reflexivity.
Defined.

(** C10 on the concrete backend: boxes (10, 12, 14) and (10, 3, 5). *)
Lemma camera_depends_on_first_box_component_only_witness :
  camera (Mock.scene (Some "0.13.2") Mock.snapshot3)
    = camera (Mock.scene (Some "0.13.2") Mock.snapshot3_flat) /\
  geometry (Mock.scene (Some "0.13.2") Mock.snapshot3) !! 1%nat =
    Some (GBox {| box := [10; 12; 14; 0; 0; 0]%float; box_radius := 0.02 |}) /\
  geometry (Mock.scene (Some "0.13.2") Mock.snapshot3_flat) !! 1%nat =
    Some (GBox {| box := [10; 3; 5; 0; 0; 0]%float; box_radius := 0.02 |}).
Proof.
  apply (camera_depends_on_first_box_component_only Mock.globals
           Mock.snapshot3 Mock.snapshot3_flat
           (Mock.process0 (Some "0.13.2")) (Mock.process0 (Some "0.13.2"))
           (Mock.process0 (Some "0.13.2")) (Mock.process0 (Some "0.13.2")));
    reflexivity.
Defined.

(** ** Errors and effects on the concrete backend *)

(** X1 on a backend without version. *)
Lemma render_without_version_always_raises_witness :
  Mock.run_render None Mock.snapshot0
    = (Raise (AttributeError "version"), Mock.process0 None).
Proof.
  apply (@render_without_version_always_raises Mock.packaging (Mock.fresnel None)
           (Mock.fresnel_tracer None) Mock.globals Mock.snapshot0 (Mock.process0 None)).
  reflexivity.
Defined.

(** X2 on a backend whose version string is no release number. *)
Lemma render_propagates_invalid_version_witness :
  Mock.run_render (Some "0.13.x") Mock.snapshot3
    = (Raise (InvalidVersion "0.13.x"), Mock.process0 (Some "0.13.x")).
Proof.
  apply (@render_propagates_invalid_version Mock.packaging (Mock.fresnel (Some "0.13.x"))
           (Mock.fresnel_tracer (Some "0.13.x")) Mock.globals Mock.snapshot3
           (Mock.process0 (Some "0.13.x")) "0.13.x" (InvalidVersion "0.13.x"));
    reflexivity.
Defined.

(** X3 on a backend of version 0.14.0, the first one outside the range. *)
Lemma render_warns_once_outside_range_witness :
  warnings (snd (Mock.run_render (Some "0.14.0") Mock.snapshot3))
    = [] ++ ["Unsupported fresnel version " +:+ "0.14.0" +:+ " - expect errors."].
Proof.
  apply (@render_warns_once_outside_range Mock.packaging (Mock.fresnel (Some "0.14.0"))
           (Mock.fresnel_tracer (Some "0.14.0")) Mock.globals Mock.snapshot3
           (Mock.process0 (Some "0.14.0")) "0.14.0" [0; 14; 0]%nat);
    [reflexivity | reflexivity | right; reflexivity].
Defined.

(** X4 on a backend of version 0.13.0, the first one inside the range. *)
Lemma render_is_silent_in_range_witness :
  warnings (snd (Mock.run_render (Some "0.13.0") Mock.snapshot3)) = [].
Proof.
  apply (@render_is_silent_in_range Mock.packaging (Mock.fresnel (Some "0.13.0"))
           (Mock.fresnel_tracer (Some "0.13.0")) Mock.globals Mock.snapshot3
           (Mock.process0 (Some "0.13.0")) "0.13.0" [0; 13; 0]%nat);
    reflexivity.
Defined.

(** X6 on a snapshot without box entries. *)
Lemma render_raises_IndexError_on_empty_box_witness :
  fst (Mock.run_render (Some "0.13.2") Mock.snapshot_no_box) = Raise IndexError /\
  world (snd (Mock.run_render (Some "0.13.2") Mock.snapshot_no_box)) = 0%nat.
Proof.
  apply (render_raises_IndexError_on_empty_box Mock.globals Mock.snapshot_no_box
           (Mock.process0 (Some "0.13.2")) "0.13.2" [0; 13; 2]%nat);
    reflexivity.
Defined.

(** X7 on a backend whose convex hull helper fails. *)
Lemma render_propagates_descriptor_failure_witness :
  fst (@render Mock.packaging (Mock.fresnel_no_hull (Some "0.13.2"))
         (Mock.tracer_no_hull (Some "0.13.2")) Mock.globals Mock.snapshot3
         (@Build_Process _ (Mock.tracer_no_hull (Some "0.13.2")) [] 0%nat))
    = Raise (BackendError "degenerate hull") /\
  world (snd (@render Mock.packaging (Mock.fresnel_no_hull (Some "0.13.2"))
                (Mock.tracer_no_hull (Some "0.13.2")) Mock.globals Mock.snapshot3
                (@Build_Process _ (Mock.tracer_no_hull (Some "0.13.2")) [] 0%nat)))
    = 0%nat.
Proof.
  apply (@render_propagates_descriptor_failure Mock.packaging
           (Mock.fresnel_no_hull (Some "0.13.2")) (Mock.tracer_no_hull (Some "0.13.2"))
           Mock.globals Mock.snapshot3
           (@Build_Process _ (Mock.tracer_no_hull (Some "0.13.2")) [] 0%nat)
           "0.13.2" [0; 13; 2]%nat 10%float (BackendError "degenerate hull"));
    reflexivity.
Defined.

(** X8 on a tracer that fails: the one call made is the one counted. *)
Lemma render_propagates_sampling_failure_witness :
  fst (@render Mock.packaging (Mock.fresnel (Some "0.13.2"))
         (Mock.failing_tracer (Some "0.13.2")) Mock.globals Mock.snapshot3
         (@Build_Process _ (Mock.failing_tracer (Some "0.13.2")) [] 0%nat))
    = Raise (BackendError "device lost") /\
  world (snd (@render Mock.packaging (Mock.fresnel (Some "0.13.2"))
                (Mock.failing_tracer (Some "0.13.2")) Mock.globals Mock.snapshot3
                (@Build_Process _ (Mock.failing_tracer (Some "0.13.2")) [] 0%nat)))
    = 1%nat.
Proof.
  apply (@render_propagates_sampling_failure Mock.packaging
           (Mock.fresnel (Some "0.13.2")) (Mock.failing_tracer (Some "0.13.2"))
           Mock.globals Mock.snapshot3
           (@Build_Process _ (Mock.failing_tracer (Some "0.13.2")) [] 0%nat)
           (@Build_Process _ (Mock.failing_tracer (Some "0.13.2")) [] 0%nat)
           (Mock.scene (Some "0.13.2") Mock.snapshot3));
    reflexivity.
Defined.

(** X10 on a call that returns. *)
Lemma render_returns_only_if_witness :
  exists s v L pi,
    fresnel_version = Some s /\ parse s = Ok v /\
    c_box (configuration Mock.snapshot3) !! 0%nat = Some L /\
    convex_polyhedron_from_vertices vertices = Ok pi.
Proof.
  apply (render_returns_only_if Mock.globals Mock.snapshot3
           (Mock.process0 (Some "0.13.2")) (Mock.process1 (Some "0.13.2"))
           {| image_data := [] |}).
  reflexivity.
Defined.

(** X11 on three particles. *)
Lemma render_returns_on_consistent_snapshot_witness :
  exists sc px,
    fst (Mock.run_scene (Some "0.13.2") Mock.snapshot3) = Ok sc /\
    fst (sample (tracer Mock.globals) sc 500 0%nat) = Ok px /\
    fst (Mock.run_render (Some "0.13.2") Mock.snapshot3)
      = Ok {| image_data := repr_png px |}.
Proof.
  apply (render_returns_on_consistent_snapshot Mock.globals Mock.snapshot3
           (Mock.process0 (Some "0.13.2")) "0.13.2" [0; 13; 2]%nat 10%float vertices);
    reflexivity.
Defined.


(** With globals other than the module's the two devices can differ: here
    the tracer was made for a device of its own. *)
Example scene_and_tracer_devices_can_differ :
  exists sc,
    fst (render_scene Mock.globals_two_devices Mock.snapshot3
           (Mock.process0 (Some "0.13.2"))) = Ok sc /\
    scene_device sc <> tracer_device (tracer Mock.globals_two_devices).
Proof.
  eexists. split; [reflexivity|]. discriminate.
Qed.

(** X13 on three particles. *)
Lemma scene_background_is_white_witness :
  background_color (Mock.scene (Some "0.13.2") Mock.snapshot3)
    = Some (PyInt 1, PyInt 1, PyInt 1) /\
  is_Some (lights (Mock.scene (Some "0.13.2") Mock.snapshot3)) /\
  is_Some (camera (Mock.scene (Some "0.13.2") Mock.snapshot3)).
Proof.
  apply (scene_background_is_white Mock.globals Mock.snapshot3
           (Mock.process0 (Some "0.13.2")) (Mock.process0 (Some "0.13.2"))).
  reflexivity.
Defined.

(** X14 on a backend of version 0.12.0 and two different snapshots. *)
Lemma two_calls_warn_twice_witness :
  warnings (snd (@render Mock.packaging (Mock.fresnel (Some "0.12.0"))
                   (Mock.fresnel_tracer (Some "0.12.0")) Mock.globals Mock.snapshot0
                   (snd (Mock.run_render (Some "0.12.0") Mock.snapshot3))))
    = [] ++ [ "Unsupported fresnel version " +:+ "0.12.0" +:+ " - expect errors.";
              "Unsupported fresnel version " +:+ "0.12.0" +:+ " - expect errors." ].
Proof.
  apply (@two_calls_warn_twice Mock.packaging (Mock.fresnel (Some "0.12.0"))
           (Mock.fresnel_tracer (Some "0.12.0")) Mock.globals Mock.snapshot3 Mock.snapshot0
           (Mock.process0 (Some "0.12.0")) "0.12.0" [0; 12; 0]%nat);
    [reflexivity | reflexivity | left; reflexivity].
Defined.
